(** * Canvas accessibility tool: the API handlers of [app.py]

    A shallow embedding of the Flask view functions of [src/app.py] and of
    the helper functions they call.  Python values that travel through the
    handlers (request bodies, session entries, response bodies) are JSON
    values; a handler is a computation over a small world made of the UTC
    clock and the trace of what the handler did (log records and calls of
    the helper functions), and it may raise. *)

From Stdlib Require Import ZArith Floats.SpecFloat.
From stdpp Require Import base option list strings gmap pretty.

Set Warnings "-register-all".

Local Open Scope string_scope.

(** ** Python values *)

(** What [request.get_json()] yields and [jsonify] accepts.  An object keeps
    its items in insertion order, as a Python [dict] does. *)
Inductive json : Type :=
  | JNull
  | JBool (b : bool)
  | JInt (z : Z)
  | JFloat (f : spec_float)
  | JStr (s : string)
  | JArr (l : list json)
  | JObj (o : list (string * json)).

Abbreviation pydict := (list (string * json)).

(** [d[k]] when present: the first item with key [k]. *)
Fixpoint dict_lookup (k : string) (d : pydict) : option json :=
  match d with
  | [] => None
  | (k', v) :: d' => if String.eqb k k' then Some v else dict_lookup k d'
  end.

(** [d.get(k, dflt)] *)
Definition dict_get (d : pydict) (k : string) (dflt : json) : json :=
  default dflt (dict_lookup k d).

(** [del d[k]], for every item with that key. *)
Definition dict_remove (k : string) (d : pydict) : pydict :=
  filter (λ kv, kv.1 ≠ k) d.

(** [bool(v)] *)
Definition truthy (v : json) : bool :=
  match v with
  | JNull => false
  | JBool b => b
  | JInt z => negb (z =? 0)%Z
  | JFloat (S754_zero _) => false
  | JFloat _ => true
  | JStr s => negb (String.eqb s "")
  | JArr l => match l with [] => false | _ => true end
  | JObj o => match o with [] => false | _ => true end
  end.

(** [type(v).__name__] *)
Definition type_name (v : json) : string :=
  match v with
  | JNull => "NoneType"
  | JBool _ => "bool"
  | JInt _ => "int"
  | JFloat _ => "float"
  | JStr _ => "str"
  | JArr _ => "list"
  | JObj _ => "dict"
  end.

(** ** Exceptions, log records, the world *)

(** An exception, with its class and what [str(e)] gives. *)
Record exn : Type := Exn { exn_class : string; exn_str : string }.

Definition AttributeError (v : json) (attr : string) : exn :=
  Exn "AttributeError"
      ("'" +:+ type_name v +:+ "' object has no attribute '" +:+ attr +:+ "'").

Inductive level : Type := INFO | ERROR.

(** What a handler does besides answering: records handed to [logger], and
    the calls of the helper functions with their arguments. *)
Inductive event : Type :=
  | Logged (lv : level) (msg : string)
  | Called (fn : string) (args : list json).

(** [datetime.datetime], naive. *)
Record datetime : Type := Datetime {
  year : nat; month : nat; day : nat;
  hour : nat; minute : nat; second : nat; microsecond : nat
}.

Record world : Type := World { clock : datetime; trace : list event }.

Inductive result (A : Type) : Type :=
  | Ok (a : A)
  | Raise (e : exn).
Arguments Ok {A} a.
Arguments Raise {A} e.

Definition M (A : Type) : Type := world → result A * world.

Definition ret {A} (a : A) : M A := λ w, (Ok a, w).

Definition bind {A B} (m : M A) (k : A → M B) : M B :=
  λ w, match m w with
       | (Ok a, w') => k a w'
       | (Raise e, w') => (Raise e, w')
       end.

Definition raise {A} (e : exn) : M A := λ w, (Raise e, w).

(** [try: m  except Exception as e: h e] *)
Definition try_except {A} (m : M A) (h : exn → M A) : M A :=
  λ w, match m w with
       | (Ok a, w') => (Ok a, w')
       | (Raise e, w') => h e w'
       end.

Definition emit (ev : event) : M unit :=
  λ w, (Ok tt, World (clock w) (trace w ++ [ev])).

(** [datetime.utcnow()] *)
Definition utcnow : M datetime := λ w, (Ok (clock w), w).

(** A value or an exception already decided, e.g. by the request. *)
Definition lift {A} (r : result A) : M A := λ w, (r, w).

Notation "'do' x <- m ; k" := (bind m (λ x, k))
  (at level 10, x name, m at level 99, k at level 200).
Notation "m ;; k" := (bind m (λ _, k))
  (at level 100, k at level 200, right associativity).

Definition logger_info (msg : string) : M unit := emit (Logged INFO msg).
Definition logger_error (msg : string) : M unit := emit (Logged ERROR msg).

(** [v.get(k, dflt)]: only a dict has the method. *)
Definition py_get (v : json) (k : string) (dflt : json) : M json :=
  match v with
  | JObj d => ret (dict_get d k dflt)
  | _ => raise (AttributeError v "get")
  end.

(** ** [datetime.isoformat()] *)

Fixpoint zeros (n : nat) : string :=
  match n with
  | O => ""
  | S n' => "0" +:+ zeros n'
  end.

(** ["%0wd" % n] *)
Definition fmt_d (w n : nat) : string :=
  let s := pretty n in zeros (w - String.length s) +:+ s.

Definition isoformat (t : datetime) : string :=
  fmt_d 4 (year t) +:+ "-" +:+ fmt_d 2 (month t) +:+ "-" +:+ fmt_d 2 (day t)
  +:+ "T" +:+ fmt_d 2 (hour t) +:+ ":" +:+ fmt_d 2 (minute t)
  +:+ ":" +:+ fmt_d 2 (second t)
  +:+ (if Nat.eqb (microsecond t) 0 then "" else "." +:+ fmt_d 6 (microsecond t)).

(** ** Requests and responses *)

(** A view's [return jsonify(v), code]. *)
Record response : Type := Response { body : json; status : Z }.

(** [jsonify(v)]: the body that is sent is the value itself; its
    serialisation is not modelled. *)
Definition jsonify (v : json) : json := v.

Inductive http_method : Type := GET | POST | HEAD.

(** What a view reads from [request]: the method, and what
    [request.get_json()] gives, a value or an exception of Flask's. *)
Record request : Type := Request {
  method : http_method;
  get_json : result json
}.

(** [session.get(k)] *)
Definition session_get (session : gmap string json) (k : string) : json :=
  default JNull (session !! k).

(** [a or b], with [b] evaluated only when [a] is falsy. *)
Definition py_or (a : json) (b : M json) : M json :=
  if truthy a then ret a else b.

(** A call of a helper function, noted in the trace before it runs. *)
Definition call {A} (fn : string) (args : list json) (m : M A) : M A :=
  emit (Called fn args) ;; m.

Section Handlers.

(** [repr(v)] for the values whose text the handlers never build
    themselves: floats, lists and dicts. *)
Variable py_repr : json → string.

(** [str(v)], which is also what an f-string field gives. *)
Definition py_str (v : json) : string :=
  match v with
  | JNull => "None"
  | JBool true => "True"
  | JBool false => "False"
  | JInt z => pretty z
  | JStr s => s
  | JFloat _ | JArr _ | JObj _ => py_repr v
  end.

(** *** Helper functions *)

(** The one-character string holding a double quote. *)
Definition dquote : string := String (Ascii.ascii_of_nat 34) EmptyString.

Definition placeholder_issue : json :=
  JObj [ ("type", JStr "error");
         ("title", JStr "Missing Alt Text on Images");
         ("description",
          JStr "Images must have alternative text for screen readers.");
         ("location",
          JStr ("Page: " +:+ dquote +:+ "Course Introduction" +:+ dquote));
         ("wcagLevel", JStr "A");
         ("wcagCriteria", JStr "1.1.1") ].

Definition perform_accessibility_scan (course_id options : json) : M json :=
  do now <- utcnow;
  ret (JObj [ ("passed", JInt 127);
              ("warnings", JInt 8);
              ("errors", JInt 3);
              ("issues", JArr [placeholder_issue]);
              ("timestamp", JStr (isoformat now)) ]).

Definition generate_report (scan_id : string) (format_type : json) : M json :=
  ret (JStr ("/downloads/report_" +:+ scan_id +:+ "." +:+ py_str format_type)).

Definition get_user_settings (user_id : json) : M json :=
  ret (JObj [ ("scanDepth", JStr "standard");
              ("wcagLevel", JStr "AA");
              ("emailNotifications", JBool false);
              ("autoScan", JBool false);
              ("reportFormat", JStr "pdf");
              ("includeScreenshots", JBool false) ]).

Definition save_user_settings (user_id settings : json) : M json :=
  logger_info ("Saved settings for user " +:+ py_str user_id) ;;
  ret JNull.

(** *** Views *)

(** [POST /api/scan], over the scan routine it calls. *)
Definition run_accessibility_scan_with (scan : json → json → M json)
    (session : gmap string json) (req : request) : M response :=
  try_except
    (do data <- lift (get_json req);
     do course_id <- py_or (session_get session "course_id")
                           (py_get data "courseId" JNull);
     if negb (truthy course_id) then
       ret (Response (jsonify (JObj [("error", JStr "Course ID required")])) 400)
     else
       do pages <- py_get data "pages" (JBool true);
       do assignments <- py_get data "assignments" (JBool true);
       do announcements <- py_get data "announcements" (JBool true);
       do modules <- py_get data "modules" (JBool false);
       let scan_options :=
         JObj [ ("pages", pages); ("assignments", assignments);
                ("announcements", announcements); ("modules", modules) ] in
       logger_info ("Starting accessibility scan for course "
                    +:+ py_str course_id) ;;
       do results <- call "perform_accessibility_scan"
                          [course_id; scan_options]
                          (scan course_id scan_options);
       ret (Response (jsonify results) 200))
    (λ e,
       logger_error ("Scan Error: " +:+ exn_str e) ;;
       ret (Response (jsonify (JObj [("error", JStr (exn_str e))])) 500)).

Definition run_accessibility_scan : gmap string json → request → M response :=
  run_accessibility_scan_with perform_accessibility_scan.

(** [GET /api/scan/<scan_id>] *)
Definition get_scan_results (scan_id : string) : M response :=
  try_except
    (let results :=
       JObj [ ("scan_id", JStr scan_id);
              ("status", JStr "completed");
              ("results", JObj []) ] in
     ret (Response (jsonify results) 200))
    (λ e,
       logger_error ("Get Scan Results Error: " +:+ exn_str e) ;;
       ret (Response (jsonify (JObj [("error", JStr (exn_str e))])) 500)).

(** [POST /api/export/<scan_id>] *)
Definition export_report (scan_id : string) (req : request) : M response :=
  try_except
    (do data <- lift (get_json req);
     do report_format <- py_get data "format" (JStr "pdf");
     do report_url <- call "generate_report" [JStr scan_id; report_format]
                           (generate_report scan_id report_format);
     ret (Response (jsonify (JObj [ ("success", JBool true);
                                    ("download_url", report_url) ])) 200))
    (λ e,
       logger_error ("Export Error: " +:+ exn_str e) ;;
       ret (Response (jsonify (JObj [("error", JStr (exn_str e))])) 500)).

(** [GET, POST /api/settings].  A method that is neither falls off the end
    of the function, which returns [None]. *)
Definition manage_settings (session : gmap string json) (req : request)
    : M (option response) :=
  let user_id := session_get session "user_id" in
  if negb (truthy user_id) then
    ret (Some (Response (jsonify (JObj [("error", JStr "Unauthorized")])) 403))
  else
    match method req with
    | GET =>
        do settings <- call "get_user_settings" [user_id]
                            (get_user_settings user_id);
        ret (Some (Response (jsonify settings) 200))
    | POST =>
        do data <- lift (get_json req);
        call "save_user_settings" [user_id; data]
             (save_user_settings user_id data) ;;
        ret (Some (Response (jsonify (JObj [("success", JBool true)])) 200))
    | HEAD => ret None
    end.

End Handlers.

(** ** Reading a timestamp back *)

(** The number written by the digits at the head of a string, and what
    follows them. *)
Fixpoint read_digits (acc : N) (s : string) : N * string :=
  match s with
  | EmptyString => (acc, s)
  | String c s' =>
      match Ascii.is_nat c with
      | Some d => read_digits (acc * 10 + N.of_nat d) s'
      | None => (acc, s)
      end
  end.

(** A string that does not go on with a digit. *)
Definition no_digit_ahead (s : string) : Prop :=
  match s with
  | EmptyString => True
  | String c _ => Ascii.is_nat c = None
  end.

(** The string after its first character. *)
Definition skip1 (s : string) : string :=
  match s with
  | EmptyString => s
  | String _ r => r
  end.

(** The fields of a text written by [isoformat]. *)
Definition read_isoformat (s : string) : datetime :=
  let '(y, r) := read_digits 0 s in
  let '(mo, r) := read_digits 0 (skip1 r) in
  let '(d, r) := read_digits 0 (skip1 r) in
  let '(h, r) := read_digits 0 (skip1 r) in
  let '(mi, r) := read_digits 0 (skip1 r) in
  let '(sec, r) := read_digits 0 (skip1 r) in
  let '(us, _) := read_digits 0 (skip1 r) in
  Datetime (N.to_nat y) (N.to_nat mo) (N.to_nat d)
           (N.to_nat h) (N.to_nat mi) (N.to_nat sec) (N.to_nat us).

(** ** The other views *)

(** What a view may answer: [jsonify(v), code]; a text with a code;
    [render_template(name)]; [redirect(url_for(endpoint))]. *)
Inductive reply : Type :=
  | JsonReply (r : response)
  | TextReply (text : string) (code : Z)
  | Rendered (template : string)
  | RedirectTo (endpoint : string).

(** A view that also writes the session: the session is threaded next to
    the world, and what was written before an exception stays written. *)
Definition SM (A : Type) : Type :=
  gmap string json → world → result A * gmap string json * world.

Definition sret {A} (a : A) : SM A := λ s w, (Ok a, s, w).

Definition sbind {A B} (m : SM A) (k : A → SM B) : SM B :=
  λ s w, match m s w with
         | (Ok a, s', w') => k a s' w'
         | (Raise e, s', w') => (Raise e, s', w')
         end.

Definition stry_except {A} (m : SM A) (h : exn → SM A) : SM A :=
  λ s w, match m s w with
         | (Ok a, s', w') => (Ok a, s', w')
         | (Raise e, s', w') => h e s' w'
         end.

(** A computation that leaves the session alone. *)
Definition slift {A} (m : M A) : SM A :=
  λ s w, let (r, w') := m w in (r, s, w').

(** [session[k] = v] *)
Definition session_set (k : string) (v : json) : SM unit :=
  λ s w, (Ok tt, <[k := v]> s, w).

(** [session.get(k)], inside a view that writes the session. *)
Definition session_read (k : string) : SM json :=
  λ s w, (Ok (session_get s k), s, w).

Notation "'dos' x <- m ; k" := (sbind m (λ x, k))
  (at level 10, x name, m at level 99, k at level 200).
Notation "m ;;; k" := (sbind m (λ _, k))
  (at level 100, k at level 200, right associativity).

Definition get_lti_config_path : string := "lti_config.json".

Definition get_launch_data_storage : json := JObj [].

(** The key of the context claim in the launch data. *)
Definition context_claim : string :=
  "https://purl.imsglobal.org/spec/lti/claim/context".

Section LtiViews.

Variable py_repr : json → string.

(** What the LTI library does for a login, given the configuration path,
    the launch data storage and the endpoint to come back to: it answers
    with its redirect, or raises. *)
Variable oidc_login_redirect : string → json → string → SM reply.

(** What the LTI library does for a launch, given the configuration path
    and the launch data storage: it validates the message and gives the
    launch data, or raises. *)
Variable message_launch_data : string → json → SM json.

(** [GET, POST /lti/login] *)
Definition lti_login : SM reply :=
  stry_except
    (oidc_login_redirect get_lti_config_path get_launch_data_storage
       "lti_launch")
    (λ e,
       slift (logger_error ("LTI Login Error: " +:+ exn_str e)) ;;;
       sret (JsonReply
               (Response (jsonify (JObj [("error", JStr "Login failed")])) 500))).

(** [POST /lti/launch] *)
Definition lti_launch : SM reply :=
  stry_except
    (dos launch_data <-
       message_launch_data get_lti_config_path get_launch_data_storage;
     session_set "launch_data" launch_data ;;;
     dos context <- slift (py_get launch_data context_claim (JObj []));
     dos context_id <- slift (py_get context "id" JNull);
     session_set "course_id" context_id ;;;
     dos sub <- slift (py_get launch_data "sub" JNull);
     session_set "user_id" sub ;;;
     dos course_id <- session_read "course_id";
     slift (logger_info ("LTI Launch successful for course: "
                         +:+ py_str py_repr course_id)) ;;;
     sret (RedirectTo "index"))
    (λ e,
       slift (logger_error ("LTI Launch Error: " +:+ exn_str e)) ;;;
       sret (JsonReply
               (Response (jsonify (JObj [("error", JStr "Launch failed")])) 500))).

End LtiViews.

(** [GET /]: the key has to be in the session, whatever its value. *)
Definition index (session : gmap string json) : reply :=
  match session !! "launch_data" with
  | None => TextReply "Unauthorized. Please launch from Canvas." 403
  | Some _ => Rendered "lti_tool.html"
  end.

(** *** Canvas *)

Definition fetch_canvas_course (course_id : string) : M json :=
  ret (JObj [("id", JStr course_id); ("name", JStr "Sample Course")]).

Definition fetch_canvas_page (course_id page_id : string) : M json :=
  ret (JObj [ ("id", JStr page_id);
              ("title", JStr "Sample Page");
              ("body", JStr "<p>Content</p>") ]).

Definition fetch_canvas_assignments (course_id : string) : M json :=
  ret (JArr [JObj [("id", JStr "1"); ("name", JStr "Assignment 1")]]).

(** [GET /api/course/<course_id>] *)
Definition get_course_info (course_id : string) : M response :=
  try_except
    (do course_data <- call "fetch_canvas_course" [JStr course_id]
                            (fetch_canvas_course course_id);
     ret (Response (jsonify course_data) 200))
    (λ e,
       logger_error ("Course Info Error: " +:+ exn_str e) ;;
       ret (Response (jsonify (JObj [("error", JStr (exn_str e))])) 500)).

(** [GET /api/course/<course_id>/page/<page_id>] *)
Definition get_page_content (course_id page_id : string) : M response :=
  try_except
    (do page_data <- call "fetch_canvas_page" [JStr course_id; JStr page_id]
                          (fetch_canvas_page course_id page_id);
     ret (Response (jsonify page_data) 200))
    (λ e,
       logger_error ("Page Content Error: " +:+ exn_str e) ;;
       ret (Response (jsonify (JObj [("error", JStr (exn_str e))])) 500)).

(** [GET /api/course/<course_id>/assignments] *)
Definition get_assignments (course_id : string) : M response :=
  try_except
    (do assignments <- call "fetch_canvas_assignments" [JStr course_id]
                            (fetch_canvas_assignments course_id);
     ret (Response (jsonify assignments) 200))
    (λ e,
       logger_error ("Assignments Error: " +:+ exn_str e) ;;
       ret (Response (jsonify (JObj [("error", JStr (exn_str e))])) 500)).

(** *** Error handlers *)

Definition not_found (error : exn) : M response :=
  ret (Response (jsonify (JObj [("error", JStr "Not found")])) 404).

Definition internal_error (error : exn) : M response :=
  logger_error ("Internal Server Error: " +:+ exn_str error) ;;
  ret (Response (jsonify (JObj [("error", JStr "Internal server error")])) 500).

(** The answer of a failed launch. *)
Definition launch_failed : reply :=
  JsonReply (Response (JObj [("error", JStr "Launch failed")]) 500).

(** The answer of a failed login. *)
Definition login_failed : reply :=
  JsonReply (Response (JObj [("error", JStr "Login failed")]) 500).

(** ** Reading a response *)

(** The items of a body that is an object. *)
Definition body_items (r : response) : pydict :=
  match body r with
  | JObj d => d
  | _ => []
  end.

(** The entries of the [issues] list of a scan response. *)
Definition response_issues (r : response) : list json :=
  match dict_lookup "issues" (body_items r) with
  | Some (JArr l) => l
  | _ => []
  end.

(** The value of a field of an object, such as an issue. *)
Definition obj_field (k : string) (v : json) : option json :=
  match v with
  | JObj d => dict_lookup k d
  | _ => None
  end.

Definition has_type (ty : string) (issue : json) : bool :=
  match obj_field "type" issue with
  | Some (JStr s) => String.eqb s ty
  | _ => false
  end.

(** How many entries of [issues] have the given [type]. *)
Definition count_type (ty : string) (issues : list json) : nat :=
  length (List.filter (has_type ty) issues).

(** The options the scan view builds from a body that is an object. *)
Definition scan_options_of (d : pydict) : json :=
  JObj [ ("pages", dict_get d "pages" (JBool true));
         ("assignments", dict_get d "assignments" (JBool true));
         ("announcements", dict_get d "announcements" (JBool true));
         ("modules", dict_get d "modules" (JBool false)) ].

(** The world once the scan view has logged its start and called the scan
    routine with course [c] and the options read from [d]. *)
Definition at_scan_call (py_repr : json → string) (c : json) (d : pydict)
    (w : world) : world :=
  World (clock w)
        ((trace w
          ++ [Logged INFO ("Starting accessibility scan for course "
                           +:+ py_str py_repr c)])
          ++ [Called "perform_accessibility_scan" [c; scan_options_of d]]).

(** The world after an exception [e] was logged by a view's handler. *)
Definition logged_error (prefix : string) (e : exn) (w : world) : world :=
  World (clock w) (trace w ++ [Logged ERROR (prefix +:+ exn_str e)]).

Definition error_response (e : exn) : response :=
  Response (JObj [("error", JStr (exn_str e))]) 500.

(** The course identifier the scan view settles on for an object body:
    [session.get('course_id') or data.get('courseId')]. *)
Definition course_id_of (session : gmap string json) (d : pydict) : json :=
  if truthy (session_get session "course_id")
  then session_get session "course_id"
  else dict_get d "courseId" JNull.

(** The payload of the placeholder scan at time [t]. *)
Definition scan_payload (t : datetime) : pydict :=
  [ ("passed", JInt 127);
    ("warnings", JInt 8);
    ("errors", JInt 3);
    ("issues", JArr [placeholder_issue]);
    ("timestamp", JStr (isoformat t)) ].

(** The settings [get_user_settings] answers with. *)
Definition default_settings : pydict :=
  [ ("scanDepth", JStr "standard");
    ("wcagLevel", JStr "AA");
    ("emailNotifications", JBool false);
    ("autoScan", JBool false);
    ("reportFormat", JStr "pdf");
    ("includeScreenshots", JBool false) ].

(** ** What the specification asks *)

(** The answer the scan view gives for a missing course identifier. *)
Definition course_id_required (resp : response) : Prop :=
  status resp = 400%Z
  ∧ body resp = JObj [("error", JStr "Course ID required")].

(** The answer to a scan request names the scan that was started and does
    not carry its results. *)
Definition answers_with_scan_id (resp : response) : Prop :=
  is_Some (dict_lookup "scanId" (body_items resp))
  ∧ dict_lookup "issues" (body_items resp) = None.

(** The error and warning counts of a payload are the numbers of its
    issues of each severity. *)
Definition counts_match_issues (d : pydict) : Prop :=
  ∃ issues,
    dict_lookup "issues" d = Some (JArr issues)
    ∧ dict_lookup "errors" d = Some (JInt (Z.of_nat (count_type "error" issues)))
    ∧ dict_lookup "warnings" d
      = Some (JInt (Z.of_nat (count_type "warning" issues))).

(** The answer to a lookup of a scan nobody started is a not-found result. *)
Definition not_found_result (resp : response) : Prop :=
  status resp = 404%Z.

(** ** Sample inputs *)

Definition sample_repr : json → string := λ _, "<repr>".

Definition t0 : datetime := Datetime 2024 3 9 7 5 0 0.
Definition t1 : datetime := Datetime 2024 3 9 7 5 1 0.

(** A world where nothing has happened yet. *)
Definition w0 : world := World t0 [].

(** The session after a launch from course 42 by user u1. *)
Definition launched : gmap string json :=
  <["course_id" := JStr "42"]> (<["user_id" := JStr "u1"]> ∅).

(** A session without a launch. *)
Definition anonymous : gmap string json := ∅.

(** Settings a user may post, with WCAG level A. *)
Definition settings_level_A : pydict :=
  [ ("scanDepth", JStr "deep");
    ("wcagLevel", JStr "A");
    ("emailNotifications", JBool true);
    ("autoScan", JBool false);
    ("reportFormat", JStr "csv");
    ("includeScreenshots", JBool false) ].

(** The launch data of user u1 in course 42. *)
Definition sample_launch_data : pydict :=
  [ ("sub", JStr "u1");
    (context_claim, JObj [("id", JStr "42"); ("title", JStr "Ethics")]) ].

(** A library that accepts the launch and gives the data [v]. *)
Definition launch_accepted (v : json) : string → json → SM json :=
  λ _ _ s w, (Ok v, s, w).

(** A library that refuses the launch. *)
Definition launch_refused : string → json → SM json :=
  λ _ _ s w, (Raise (Exn "LtiException" "Invalid id_token"), s, w).

(** A library that refuses the login. *)
Definition login_refused : string → json → string → SM reply :=
  λ _ _ _ s w, (Raise (Exn "OIDCException" "Could not find issuer"), s, w).

(** * Properties *)

Example isoformat_whole_second :
  isoformat (Datetime 2024 3 9 7 5 0 0) = "2024-03-09T07:05:00".
Proof. vm_compute. reflexivity. Qed.

Example isoformat_micro :
  isoformat (Datetime 2024 12 31 23 59 59 1500) = "2024-12-31T23:59:59.001500".
Proof. vm_compute. reflexivity. Qed.

Section ScanView.

Context (py_repr : json → string).

Lemma course_id_choice (session : gmap string json) (d : pydict) (w : world) :
  py_or (session_get session "course_id") (py_get (JObj d) "courseId" JNull) w
  = (Ok (course_id_of session d), w).
Proof.
  unfold py_or, course_id_of.
  destruct (truthy (session_get session "course_id")); reflexivity.
Qed.

(** The scan view on an object body with a course identifier: it logs,
    calls the scan routine, and answers from what the routine did. *)
Lemma run_scan_with_object scan session m d w c :
  c = course_id_of session d →
  truthy c = true →
  run_accessibility_scan_with py_repr scan session (Request m (Ok (JObj d))) w
  = match scan c (scan_options_of d) (at_scan_call py_repr c d w) with
    | (Ok results, w') => (Ok (Response results 200), w')
    | (Raise e, w') => (Ok (error_response e), logged_error "Scan Error: " e w')
    end.
Proof.
  intros Hc Ht.
  unfold run_accessibility_scan_with, try_except.
  unfold bind at 1. cbn [get_json lift].
  unfold bind at 1. rewrite course_id_choice, <- Hc, Ht. cbn [negb].
  unfold at_scan_call, scan_options_of, logged_error, error_response.
  unfold bind, call, logger_info, logger_error, emit, ret, jsonify.
  cbn -[String.append truthy py_str].
  destruct (scan _ _ _) as [[results|e] w']; reflexivity.
Qed.

(** Without a course identifier the view answers 400 and does nothing. *)
Lemma run_scan_with_no_course scan session m d w :
  truthy (course_id_of session d) = false →
  run_accessibility_scan_with py_repr scan session (Request m (Ok (JObj d))) w
  = (Ok (Response (JObj [("error", JStr "Course ID required")]) 400), w).
Proof.
  intros Ht.
  unfold run_accessibility_scan_with, try_except.
  unfold bind at 1. cbn [get_json lift].
  unfold bind at 1. rewrite course_id_choice, Ht. reflexivity.
Qed.

Lemma perform_accessibility_scan_eq course_id options w :
  perform_accessibility_scan course_id options w
  = (Ok (JObj (scan_payload (clock w))), w).
Proof. reflexivity. Qed.

(** The scan view with the placeholder scan, on an object body with a
    course identifier. *)
Lemma run_scan_object session m d w c :
  c = course_id_of session d →
  truthy c = true →
  run_accessibility_scan py_repr session (Request m (Ok (JObj d))) w
  = (Ok (Response (JObj (scan_payload (clock w))) 200),
     at_scan_call py_repr c d w).
Proof.
  intros Hc Ht. unfold run_accessibility_scan.
  rewrite (run_scan_with_object _ _ _ _ _ c Hc Ht).
  rewrite perform_accessibility_scan_eq. reflexivity.
Qed.

(** The scan view never raises, whatever the request and the routine. *)
Lemma run_scan_with_total scan session req w :
  ∃ resp w', run_accessibility_scan_with py_repr scan session req w
             = (Ok resp, w').
Proof.
  unfold run_accessibility_scan_with, try_except.
  match goal with |- context [match ?m w with _ => _ end] =>
    destruct (m w) as [[resp|e] w'] end.
  - eauto.
  - unfold bind, logger_error, emit, ret. cbn. eauto.
Qed.

(** C2 (as amended): the scan request is served synchronously.  The view
    runs the scan before it answers, and the answer, of status 200, is the
    completed payload of the scan (counts, issues, timestamp); it holds no
    scan identifier and no status field. *)
Theorem scan_answer_carries_results session m d w c :
  c = course_id_of session d →
  truthy c = true →
  ∃ resp w',
    run_accessibility_scan py_repr session (Request m (Ok (JObj d))) w
    = (Ok resp, w')
    ∧ status resp = 200%Z
    ∧ body resp = JObj (scan_payload (clock w))
    ∧ response_issues resp = [placeholder_issue]
    ∧ dict_lookup "scanId" (body_items resp) = None
    ∧ dict_lookup "scan_id" (body_items resp) = None
    ∧ dict_lookup "status" (body_items resp) = None
    ∧ w' = at_scan_call py_repr c d w.
Proof.
  intros Hc Ht. eexists _, _.
  split; [apply (run_scan_object _ _ _ _ c Hc Ht)|].
  repeat split.
Qed.


(** A body that is not an object: once the view asks it for a key, the
    [AttributeError] is answered as a 500. *)
Lemma run_scan_not_object session m v w :
  (∀ d, v ≠ JObj d) →
  run_accessibility_scan py_repr session (Request m (Ok v)) w
  = (Ok (error_response (AttributeError v "get")),
     logged_error "Scan Error: " (AttributeError v "get") w).
Proof.
  intros Hv.
  unfold run_accessibility_scan, run_accessibility_scan_with, try_except.
  unfold bind at 1. cbn [get_json lift].
  unfold bind at 1. unfold py_or.
  destruct (truthy (session_get session "course_id")) eqn:Hs.
  - unfold ret at 1. rewrite Hs. cbn [negb].
    destruct v; try reflexivity. by destruct (Hv o).
  - destruct v; try reflexivity. by destruct (Hv o).
Qed.

(** When [request.get_json()] raises, that exception is answered as a 500. *)
Lemma run_scan_bad_request session m e w :
  run_accessibility_scan py_repr session (Request m (Raise e)) w
  = (Ok (error_response e), logged_error "Scan Error: " e w).
Proof. reflexivity. Qed.

(** C9 (as amended): the course the scan is run for.  When the body is a
    JSON object: a session course identifier, when there is one, is the one
    the scan is called with, whatever the body says; the body's [courseId]
    is used when the session has none; and with neither the view answers
    400, [Course ID required], and leaves the world as it was.  When the
    body is not an object, or cannot be read, the view answers 500 with the
    text of the exception, whatever the session holds, and calls no scan. *)
Theorem scan_course_id_source session req w :
  let s := session_get session "course_id" in
  let run := run_accessibility_scan py_repr session req w in
  (∀ d, get_json req = Ok (JObj d) →
     let b := dict_get d "courseId" JNull in
     (truthy s = true →
      run = (Ok (Response (JObj (scan_payload (clock w))) 200),
             at_scan_call py_repr s d w))
     ∧ (truthy s = false → truthy b = true →
        run = (Ok (Response (JObj (scan_payload (clock w))) 200),
               at_scan_call py_repr b d w))
     ∧ (truthy s = false → truthy b = false →
        run = (Ok (Response (JObj [("error", JStr "Course ID required")]) 400),
               w)))
  ∧ (∀ v, get_json req = Ok v → (∀ d, v ≠ JObj d) →
       run = (Ok (error_response (AttributeError v "get")),
              logged_error "Scan Error: " (AttributeError v "get") w))
  ∧ (∀ e, get_json req = Raise e →
       run = (Ok (error_response e), logged_error "Scan Error: " e w)).
Proof.
  intros s run. subst run. destruct req as [m r]. cbn [get_json].
  split; [|split].
  - intros d ->. split; [|split].
    + intros Hs. apply run_scan_object; [|done].
      unfold course_id_of. fold s. by rewrite Hs.
    + intros Hs Hb. apply run_scan_object; [|done].
      unfold course_id_of. fold s. by rewrite Hs.
    + intros Hs Hb. unfold run_accessibility_scan.
      apply (run_scan_with_no_course _ session m d w).
      unfold course_id_of. fold s. by rewrite Hs.
  - intros v -> Hv. by apply run_scan_not_object.
  - intros e ->. apply run_scan_bad_request.
Qed.

(** Every answer of the scan view lists either nothing or the placeholder
    issue. *)
Lemma run_scan_issues session req w resp w' :
  run_accessibility_scan py_repr session req w = (Ok resp, w') →
  response_issues resp = [] ∨ response_issues resp = [placeholder_issue].
Proof.
  destruct req as [m [v|e]].
  - destruct v as [| | | | | |d];
      try (rewrite run_scan_not_object by done; intros [= <- _]; by left).
    destruct (truthy (course_id_of session d)) eqn:Ht.
    + rewrite (run_scan_object _ _ _ _ _ eq_refl Ht). intros [= <- _]. by right.
    + unfold run_accessibility_scan.
      rewrite (run_scan_with_no_course _ _ _ _ _ Ht). intros [= <- _]. by left.
  - rewrite run_scan_bad_request. intros [= <- _]. by left.
Qed.

End ScanView.

(** ** The placeholder scan *)

(** C3 (as amended): the counts of a scan payload are fixed numbers, 127
    passed, 8 warnings and 3 errors, whatever is scanned, next to a list of
    exactly one issue, of type error; they are not the numbers of listed
    issues.  No listed issue stands for a passed check: each is an error. *)
Theorem scan_counts_fixed (course_id options : json) (w : world) :
  ∃ d issues,
    perform_accessibility_scan course_id options w = (Ok (JObj d), w)
    ∧ dict_lookup "passed" d = Some (JInt 127)
    ∧ dict_lookup "warnings" d = Some (JInt 8)
    ∧ dict_lookup "errors" d = Some (JInt 3)
    ∧ dict_lookup "issues" d = Some (JArr issues)
    ∧ length issues = 1
    ∧ count_type "error" issues = 1
    ∧ count_type "warning" issues = 0
    ∧ Forall (λ i, has_type "error" i = true) issues.
Proof.
  exists (scan_payload (clock w)), [placeholder_issue].
  repeat split. by repeat constructor.
Qed.

(** C5 (as amended): two runs of the scan on the same course and options
    give the same issues in the same order and the same payload but for its
    timestamp, which is the UTC time of each run. *)
Theorem scan_repeatable_up_to_timestamp (course_id options : json)
    (w1 w2 : world) :
  ∃ d1 d2,
    perform_accessibility_scan course_id options w1 = (Ok (JObj d1), w1)
    ∧ perform_accessibility_scan course_id options w2 = (Ok (JObj d2), w2)
    ∧ dict_lookup "issues" d1 = dict_lookup "issues" d2
    ∧ dict_remove "timestamp" d1 = dict_remove "timestamp" d2
    ∧ dict_lookup "timestamp" d1 = Some (JStr (isoformat (clock w1)))
    ∧ dict_lookup "timestamp" d2 = Some (JStr (isoformat (clock w2))).
Proof.
  exists (scan_payload (clock w1)), (scan_payload (clock w2)).
  repeat split.
Qed.

(** ** Stored scans *)

Lemma get_scan_results_eq (scan_id : string) (w : world) :
  get_scan_results scan_id w
  = (Ok (Response (JObj [ ("scan_id", JStr scan_id);
                          ("status", JStr "completed");
                          ("results", JObj []) ]) 200), w).
Proof. reflexivity. Qed.

(** C4: what the code does where the claim asks for a not-found result.
    In a world where no scan was ever started, the lookup of a scan
    identifier is answered 200 with a completed result made up for it. *)
Theorem get_scan_results_never_started :
  ∃ resp,
    trace w0 = []
    ∧ get_scan_results "never-started" w0 = (Ok resp, w0)
    ∧ body resp = JObj [ ("scan_id", JStr "never-started");
                         ("status", JStr "completed");
                         ("results", JObj []) ]
    ∧ status resp = 200%Z
    ∧ ¬ not_found_result resp.
Proof.
  eexists. rewrite get_scan_results_eq. repeat split.
  unfold not_found_result. cbn. lia.
Qed.

Section OtherViews.

Context (py_repr : json → string).

(** ** Export *)

Lemma export_report_object scan_id m d w :
  export_report py_repr scan_id (Request m (Ok (JObj d))) w
  = (Ok (Response
           (JObj [ ("success", JBool true);
                   ("download_url",
                    JStr ("/downloads/report_" +:+ scan_id +:+ "."
                          +:+ py_str py_repr (dict_get d "format" (JStr "pdf")))) ])
           200),
     World (clock w)
           (trace w ++ [Called "generate_report"
                               [JStr scan_id; dict_get d "format" (JStr "pdf")]])).
Proof. reflexivity. Qed.

(** C10: for every scan identifier and every format string, given in the
    body or defaulting to pdf, the export view answers 200 with success and
    the download URL [/downloads/report_<scan_id>.<format>], in every world
    (whether or not a scan of that identifier exists) and for every format
    string (none is rejected). *)
Theorem export_report_url scan_id m d w f :
  dict_lookup "format" d = Some (JStr f)
  ∨ (dict_lookup "format" d = None ∧ f = "pdf") →
  ∃ w',
    export_report py_repr scan_id (Request m (Ok (JObj d))) w
    = (Ok (Response
             (JObj [ ("success", JBool true);
                     ("download_url",
                      JStr ("/downloads/report_" +:+ scan_id +:+ "." +:+ f)) ])
             200), w').
Proof.
  intros Hf. eexists. rewrite export_report_object.
  unfold dict_get. destruct Hf as [-> | [-> ->]]; reflexivity.
Qed.

(** ** Settings *)

Lemma manage_settings_post session v w :
  truthy (session_get session "user_id") = true →
  manage_settings py_repr session (Request POST (Ok v)) w
  = (Ok (Some (Response (JObj [("success", JBool true)]) 200)),
     World (clock w)
           ((trace w
             ++ [Called "save_user_settings" [session_get session "user_id"; v]])
             ++ [Logged INFO ("Saved settings for user "
                              +:+ py_str py_repr (session_get session "user_id"))])).
Proof. intros Hu. unfold manage_settings. rewrite Hu. reflexivity. Qed.

Lemma manage_settings_get session r w :
  truthy (session_get session "user_id") = true →
  manage_settings py_repr session (Request GET r) w
  = (Ok (Some (Response (JObj default_settings) 200)),
     World (clock w)
           (trace w ++ [Called "get_user_settings"
                               [session_get session "user_id"]])).
Proof. intros Hu. unfold manage_settings. rewrite Hu. reflexivity. Qed.

(** Whatever a user posted before, the settings read back are the same. *)
Lemma settings_get_after_post session v r w :
  truthy (session_get session "user_id") = true →
  ∃ w',
    manage_settings py_repr session (Request GET r)
      (manage_settings py_repr session (Request POST (Ok v)) w).2
    = (Ok (Some (Response (JObj default_settings) 200)), w').
Proof. intros Hu. eexists. by rewrite manage_settings_get. Qed.

End OtherViews.

(** C7: what the code does where the claim asks that saved settings be
    read back.  User u1 posts settings with WCAG level A, then reads the
    settings: the answer is the fixed default record, of level AA, not what
    was posted. *)
Theorem settings_post_then_get :
  ∃ w1 got w2,
    manage_settings sample_repr launched
      (Request POST (Ok (JObj settings_level_A))) w0
    = (Ok (Some (Response (JObj [("success", JBool true)]) 200)), w1)
    ∧ manage_settings sample_repr launched (Request GET (Ok JNull)) w1
      = (Ok (Some (Response got 200)), w2)
    ∧ got = JObj default_settings
    ∧ got ≠ JObj settings_level_A
    ∧ obj_field "wcagLevel" got = Some (JStr "AA")
    ∧ obj_field "wcagLevel" (JObj settings_level_A) = Some (JStr "A").
Proof.
  eexists _, _, _.
  split; [by apply manage_settings_post|].
  split; [by apply manage_settings_get|].
  repeat split. discriminate.
Qed.

(** ** The claims at sample inputs *)

Lemma scan_answer_carries_results_witness :
  JStr "42" = course_id_of launched []
  ∧ truthy (JStr "42") = true
  ∧ ∃ resp w',
      run_accessibility_scan sample_repr launched
        (Request POST (Ok (JObj []))) w0 = (Ok resp, w')
      ∧ status resp = 200%Z
      ∧ body resp = JObj (scan_payload (clock w0))
      ∧ response_issues resp = [placeholder_issue]
      ∧ dict_lookup "scanId" (body_items resp) = None
      ∧ dict_lookup "scan_id" (body_items resp) = None
      ∧ dict_lookup "status" (body_items resp) = None
      ∧ w' = at_scan_call sample_repr (JStr "42") [] w0.
Proof.
  split; [reflexivity|]. split; [reflexivity|].
  apply (scan_answer_carries_results sample_repr launched POST [] w0 (JStr "42"));
    reflexivity.
Defined.

(** C2 fails as stated: the answer to a scan request holds the issues of
    the finished scan and no scan identifier. *)
Lemma scan_answer_not_a_scan_id :
  ∃ resp w',
    run_accessibility_scan sample_repr launched
      (Request POST (Ok (JObj []))) w0 = (Ok resp, w')
    ∧ ¬ answers_with_scan_id resp.
Proof.
  eexists _, _. split.
  - apply (run_scan_object sample_repr launched POST [] w0 (JStr "42"));
      reflexivity.
  - intros [[v Hv] _]. discriminate Hv.
Qed.

(** C3 fails as stated: the payload counts 3 errors and 8 warnings and
    lists one issue, an error. *)
Lemma scan_counts_differ_from_issues :
  ∃ d,
    perform_accessibility_scan (JStr "42") (scan_options_of []) w0
    = (Ok (JObj d), w0)
    ∧ ¬ counts_match_issues d.
Proof.
  exists (scan_payload t0). split; [reflexivity|].
  intros (issues & Hissues & Herrors & _).
  injection Hissues as <-. discriminate Herrors.
Qed.

(** C5 fails as stated: the same scan run a second later gives another
    payload. *)
Lemma scan_payload_changes_with_clock :
  (perform_accessibility_scan (JStr "42") (scan_options_of []) (World t0 [])).1
  ≠ (perform_accessibility_scan (JStr "42") (scan_options_of []) (World t1 [])).1.
Proof.
  intros H.
  assert (Hts : isoformat t0 = isoformat t1).
  { cbn [perform_accessibility_scan bind utcnow ret clock fst] in H.
    unfold perform_accessibility_scan, bind, utcnow, ret in H.
    cbn [clock fst] in H. by injection H. }
  vm_compute in Hts. discriminate Hts.
Qed.


Lemma scan_course_id_source_witness :
  let from_body := [("courseId", JStr "99")] in
  let unreadable := Exn "BadRequest" "400 Bad Request: Failed to decode JSON object" in
  (truthy (session_get launched "course_id") = true
   ∧ run_accessibility_scan sample_repr launched
       (Request POST (Ok (JObj from_body))) w0
     = (Ok (Response (JObj (scan_payload t0)) 200),
        at_scan_call sample_repr (JStr "42") from_body w0))
  ∧ (truthy (session_get anonymous "course_id") = false
     ∧ truthy (dict_get from_body "courseId" JNull) = true
     ∧ run_accessibility_scan sample_repr anonymous
         (Request POST (Ok (JObj from_body))) w0
       = (Ok (Response (JObj (scan_payload t0)) 200),
          at_scan_call sample_repr (JStr "99") from_body w0))
  ∧ (truthy (session_get anonymous "course_id") = false
     ∧ truthy (dict_get [] "courseId" JNull) = false
     ∧ run_accessibility_scan sample_repr anonymous
         (Request POST (Ok (JObj []))) w0
       = (Ok (Response (JObj [("error", JStr "Course ID required")]) 400), w0))
  ∧ run_accessibility_scan sample_repr launched (Request POST (Ok JNull)) w0
    = (Ok (error_response (AttributeError JNull "get")),
       logged_error "Scan Error: " (AttributeError JNull "get") w0)
  ∧ run_accessibility_scan sample_repr launched (Request POST (Raise unreadable)) w0
    = (Ok (error_response unreadable),
       logged_error "Scan Error: " unreadable w0).
Proof.
  intros from_body unreadable.
  split; [|split; [|split; [|split]]].
  - split; [reflexivity|].
    destruct (scan_course_id_source sample_repr launched
                (Request POST (Ok (JObj from_body))) w0) as (Hobject & _ & _).
    destruct (Hobject from_body eq_refl) as (Hsession & _ & _).
    apply Hsession. reflexivity.
  - split; [reflexivity|]. split; [reflexivity|].
    destruct (scan_course_id_source sample_repr anonymous
                (Request POST (Ok (JObj from_body))) w0) as (Hobject & _ & _).
    destruct (Hobject from_body eq_refl) as (_ & Hbody & _).
    apply Hbody; reflexivity.
  - split; [reflexivity|]. split; [reflexivity|].
    destruct (scan_course_id_source sample_repr anonymous
                (Request POST (Ok (JObj []))) w0) as (Hobject & _ & _).
    destruct (Hobject [] eq_refl) as (_ & _ & Hnone).
    apply Hnone; reflexivity.
  - destruct (scan_course_id_source sample_repr launched
                (Request POST (Ok JNull)) w0) as (_ & Hother & _).
    apply (Hother JNull eq_refl). intros d. discriminate.
  - destruct (scan_course_id_source sample_repr launched
                (Request POST (Raise unreadable)) w0) as (_ & _ & Hraise).
    apply (Hraise unreadable eq_refl).
Defined.

(** C9 fails as stated: a request with a null body and no course in the
    session names no course, and is answered 500 with the text of an
    [AttributeError], not 400. *)
Lemma scan_null_body_not_400 :
  truthy (session_get anonymous "course_id") = false
  ∧ ∃ resp w',
      run_accessibility_scan sample_repr anonymous (Request POST (Ok JNull)) w0
      = (Ok resp, w')
      ∧ status resp = 500%Z
      ∧ body resp
        = JObj [("error", JStr "'NoneType' object has no attribute 'get'")]
      ∧ ¬ course_id_required resp.
Proof.
  split; [reflexivity|]. eexists _, _.
  split; [reflexivity|]. split; [reflexivity|]. split; [reflexivity|].
  intros [Hstatus _]. discriminate Hstatus.
Qed.

Lemma export_report_url_witness :
  (dict_lookup "format" [("format", JStr "docx")] = Some (JStr "docx")
   ∧ ∃ w',
       export_report sample_repr "no-such-scan"
         (Request POST (Ok (JObj [("format", JStr "docx")]))) w0
       = (Ok (Response
                (JObj [ ("success", JBool true);
                        ("download_url",
                         JStr "/downloads/report_no-such-scan.docx") ])
                200), w'))
  ∧ (dict_lookup "format" [] = None
     ∧ ∃ w',
         export_report sample_repr "no-such-scan" (Request POST (Ok (JObj []))) w0
         = (Ok (Response
                  (JObj [ ("success", JBool true);
                          ("download_url",
                           JStr "/downloads/report_no-such-scan.pdf") ])
                  200), w')).
Proof.
  split.
  - split; [reflexivity|].
    apply (export_report_url sample_repr "no-such-scan" POST
             [("format", JStr "docx")] w0 "docx").
    left. reflexivity.
  - split; [reflexivity|].
    apply (export_report_url sample_repr "no-such-scan" POST [] w0 "pdf").
    right. split; reflexivity.
Defined.


(** * Further properties of the code *)

(** ** The timestamp of a scan *)

Lemma is_nat_pretty_N_char (d : N) :
  (d < 10)%N → Ascii.is_nat (pretty_N_char d) = Some (N.to_nat d).
Proof.
  intros Hd.
  assert (d = 0 ∨ d = 1 ∨ d = 2 ∨ d = 3 ∨ d = 4 ∨ d = 5 ∨ d = 6 ∨ d = 7
          ∨ d = 8 ∨ d = 9)%N as Hcases by lia.
  repeat (destruct Hcases as [-> | Hcases]; [reflexivity|]).
  by subst.
Qed.

Lemma string_app_assoc (a b c : string) : (a +:+ b) +:+ c = a +:+ (b +:+ c).
Proof.
  induction a as [|x a IH]; [done|].
  change ((String x a +:+ b) +:+ c) with (String x ((a +:+ b) +:+ c)).
  by rewrite IH.
Qed.

Lemma string_app_nil_r (a : string) : a +:+ "" = a.
Proof.
  induction a as [|x a IH]; [done|].
  change (String x a +:+ "") with (String x (a +:+ "")). by rewrite IH.
Qed.

(** The digits of a number, written before [s] or before [s +:+ t]. *)
Lemma pretty_N_go_app (x : N) (s t : string) :
  pretty_N_go x s +:+ t = pretty_N_go x (s +:+ t).
Proof.
  revert s. induction (N.lt_wf_0 x) as [x _ IH]. intros s.
  destruct (decide (x = 0)%N) as [-> | Hx].
  - by rewrite !pretty_N_go_0.
  - rewrite (pretty_N_go_step x s), (pretty_N_go_step x (s +:+ t)) by lia.
    rewrite IH by (apply N.div_lt; lia). reflexivity.
Qed.

(** Reading the digits of [x] is reading on from [x]. *)
Lemma read_digits_pretty_N_go (x : N) (s : string) :
  read_digits 0 (pretty_N_go x s) = read_digits x s.
Proof.
  revert s. induction (N.lt_wf_0 x) as [x _ IH]. intros s.
  destruct (decide (x = 0)%N) as [-> | Hx].
  - by rewrite pretty_N_go_0.
  - rewrite pretty_N_go_step by lia.
    rewrite IH by (apply N.div_lt; lia).
    cbn [read_digits].
    rewrite is_nat_pretty_N_char by (apply N.mod_lt; lia).
    rewrite N2Nat.id. f_equal.
    rewrite (N.div_mod x 10) at 3 by lia. lia.
Qed.

Lemma read_digits_stop (acc : N) (s : string) :
  no_digit_ahead s → read_digits acc s = (acc, s).
Proof. destruct s as [|c s]; [done|]. cbn. by intros ->. Qed.

Lemma read_digits_zeros (k : nat) (s : string) :
  read_digits 0 (zeros k +:+ s) = read_digits 0 s.
Proof. induction k as [|k IH]; [done|]. exact IH. Qed.

Lemma read_digits_pretty (n : nat) (rest : string) :
  no_digit_ahead rest →
  read_digits 0 (pretty n +:+ rest) = (N.of_nat n, rest).
Proof.
  intros Hrest. unfold pretty, pretty_nat, pretty, pretty_N.
  case_decide as Hn.
  - rewrite Hn. change (read_digits 0 ("0" +:+ rest)) with (read_digits 0 rest).
    by apply read_digits_stop.
  - rewrite pretty_N_go_app, read_digits_pretty_N_go. cbn [String.append].
    by apply read_digits_stop.
Qed.

(** A padded number is read back whatever the padding. *)
Lemma read_digits_fmt_d (w n : nat) (rest : string) :
  no_digit_ahead rest →
  read_digits 0 (fmt_d w n +:+ rest) = (N.of_nat n, rest).
Proof.
  intros Hrest. unfold fmt_d. cbv zeta.
  rewrite string_app_assoc, read_digits_zeros. by apply read_digits_pretty.
Qed.

(** The text of a date and time gives its fields back. *)
Lemma read_isoformat_isoformat (t : datetime) :
  read_isoformat (isoformat t) = t.
Proof.
  destruct t as [y mo d h mi sec us].
  unfold isoformat, read_isoformat. cbn [year month day hour minute second microsecond].
  rewrite read_digits_fmt_d by exact eq_refl.
  change (skip1 ("-" +:+ ?r)) with r.
  rewrite read_digits_fmt_d by exact eq_refl.
  change (skip1 ("-" +:+ ?r)) with r.
  rewrite read_digits_fmt_d by exact eq_refl.
  change (skip1 ("T" +:+ ?r)) with r.
  rewrite read_digits_fmt_d by exact eq_refl.
  change (skip1 (":" +:+ ?r)) with r.
  rewrite read_digits_fmt_d by exact eq_refl.
  change (skip1 (":" +:+ ?r)) with r.
  destruct (Nat.eqb_spec us 0) as [-> | Hus].
  - rewrite read_digits_fmt_d by exact I.
    cbn [skip1 read_digits]. by rewrite !Nat2N.id.
  - rewrite read_digits_fmt_d by exact eq_refl.
    change (skip1 ("." +:+ ?r)) with r.
    rewrite <- (string_app_nil_r (fmt_d 6 us)).
    rewrite read_digits_fmt_d by exact I.
    by rewrite !Nat2N.id.
Qed.

Lemma isoformat_inj (t1 t2 : datetime) :
  isoformat t1 = isoformat t2 → t1 = t2.
Proof.
  intros H. rewrite <- (read_isoformat_isoformat t1), H.
  apply read_isoformat_isoformat.
Qed.

(** X1: two runs of the placeholder scan give the same payload exactly
    when the clock reads the same at both: the timestamp tells the runs
    apart, and nothing else does, neither the course nor the options. *)
Theorem scan_payload_eq_iff_clock (c1 c2 o1 o2 : json) (w1 w2 : world) :
  (perform_accessibility_scan c1 o1 w1).1 = (perform_accessibility_scan c2 o2 w2).1
  ↔ clock w1 = clock w2.
Proof.
  rewrite !perform_accessibility_scan_eq. cbn [fst]. split.
  - intros [= H]. by apply isoformat_inj.
  - by intros ->.
Qed.

Section ScanViewMore.

Context (py_repr : json → string).

(** X2: the scan view never raises, and what it answers is decided by the
    body and the course identifier alone: 200 when the body is an object
    and a course identifier is found, 400 when the body is an object and
    none is found (the world is then left as it was), and 500 when
    [get_json] raised or the body is not an object.  A 500 carries the
    text of the exception, which is also logged, and no scan was called. *)
Theorem scan_status_cases session req w :
  ∃ resp w',
    run_accessibility_scan py_repr session req w = (Ok resp, w')
    ∧ ((status resp = 200%Z
        ∧ ∃ d, get_json req = Ok (JObj d)
               ∧ truthy (course_id_of session d) = true
               ∧ w' = at_scan_call py_repr (course_id_of session d) d w)
       ∨ (status resp = 400%Z
          ∧ ∃ d, get_json req = Ok (JObj d)
                 ∧ truthy (course_id_of session d) = false
                 ∧ w' = w)
       ∨ (status resp = 500%Z
          ∧ ∃ e, (get_json req = Raise e
                  ∨ ∃ v, get_json req = Ok v ∧ (∀ d, v ≠ JObj d)
                         ∧ e = AttributeError v "get")
                 ∧ resp = error_response e
                 ∧ w' = logged_error "Scan Error: " e w)).
Proof.
  destruct req as [m [v|e]].
  - assert (Hv : (∃ d, v = JObj d) ∨ ∀ d, v ≠ JObj d).
    { destruct v; eauto; right; intros d'; discriminate. }
    destruct Hv as [[d ->] | Hv].
    + destruct (truthy (course_id_of session d)) eqn:Ht.
      * rewrite (run_scan_object py_repr session m d w _ eq_refl Ht).
        eexists _, _. split; [reflexivity|].
        left. split; [reflexivity|]. exists d. by rewrite Ht.
      * unfold run_accessibility_scan.
        rewrite (run_scan_with_no_course py_repr _ session m d w Ht).
        eexists _, _. split; [reflexivity|].
        right; left. split; [reflexivity|]. exists d. by rewrite Ht.
    + rewrite (run_scan_not_object py_repr session m v w Hv).
      eexists _, _. split; [reflexivity|].
      right; right. split; [reflexivity|].
      exists (AttributeError v "get"). split; [|done].
      right. by exists v.
  - rewrite run_scan_bad_request.
    eexists _, _. split; [reflexivity|].
    right; right. split; [reflexivity|]. exists e. split; [by left | done].
Qed.

(** X4: among the scan requests that are answered 200, the answer depends
    on nothing but the clock: not on the session, the course, the method
    or the options of the body. *)
Theorem scan_answer_ignores_request session1 session2 m1 m2 d1 d2 w1 w2 :
  truthy (course_id_of session1 d1) = true →
  truthy (course_id_of session2 d2) = true →
  clock w1 = clock w2 →
  (run_accessibility_scan py_repr session1 (Request m1 (Ok (JObj d1))) w1).1
  = (run_accessibility_scan py_repr session2 (Request m2 (Ok (JObj d2))) w2).1.
Proof.
  intros H1 H2 Hclock.
  rewrite (run_scan_object py_repr session1 m1 d1 w1 _ eq_refl H1).
  rewrite (run_scan_object py_repr session2 m2 d2 w2 _ eq_refl H2).
  cbn [fst]. by rewrite Hclock.
Qed.

End ScanViewMore.

(** ** Export and settings, at their edges *)

Lemma string_length_app (a b : string) :
  String.length (a +:+ b) = (String.length a + String.length b)%nat.
Proof.
  induction a as [|x a IH]; [done|].
  change (String x a +:+ b) with (String x (a +:+ b)). cbn. by rewrite IH.
Qed.

Lemma string_app_inj_r (a b t : string) : a +:+ t = b +:+ t → a = b.
Proof.
  revert b. induction a as [|x a IH]; intros [|y b] H.
  - done.
  - change (t = String y (b +:+ t)) in H.
    apply (f_equal String.length) in H.
    cbn [String.length] in H. rewrite string_length_app in H. lia.
  - change (String x (a +:+ t) = t) in H.
    apply (f_equal String.length) in H.
    cbn [String.length] in H. rewrite string_length_app in H. lia.
  - change (String x (a +:+ t) = String y (b +:+ t)) in H.
    injection H as -> H. f_equal. by apply IH.
Qed.

Section EdgesOfViews.

Context (py_repr : json → string).

Lemma export_report_not_object scan_id m v w :
  (∀ d, v ≠ JObj d) →
  export_report py_repr scan_id (Request m (Ok v)) w
  = (Ok (error_response (AttributeError v "get")),
     logged_error "Export Error: " (AttributeError v "get") w).
Proof. intros Hv. destruct v; try reflexivity. by destruct (Hv o). Qed.

Lemma export_report_bad_request scan_id m e w :
  export_report py_repr scan_id (Request m (Raise e)) w
  = (Ok (error_response e), logged_error "Export Error: " e w).
Proof. reflexivity. Qed.

(** X5: the export view never raises.  It answers 200 exactly when the
    body is an object, after one call of [generate_report]; when
    [get_json] raised or the body is not an object it answers 500 with the
    text of the exception, logs it, and no report is generated. *)
Theorem export_status_cases scan_id req w :
  ∃ resp w',
    export_report py_repr scan_id req w = (Ok resp, w')
    ∧ ((status resp = 200%Z
        ∧ ∃ d, get_json req = Ok (JObj d)
               ∧ w' = World (clock w)
                        (trace w
                         ++ [Called "generate_report"
                               [JStr scan_id; dict_get d "format" (JStr "pdf")]]))
       ∨ (status resp = 500%Z
          ∧ ∃ e, (get_json req = Raise e
                  ∨ ∃ v, get_json req = Ok v ∧ (∀ d, v ≠ JObj d)
                         ∧ e = AttributeError v "get")
                 ∧ resp = error_response e
                 ∧ w' = logged_error "Export Error: " e w)).
Proof.
  destruct req as [m [v|e]].
  - assert (Hv : (∃ d, v = JObj d) ∨ ∀ d, v ≠ JObj d).
    { destruct v; eauto; right; intros d'; discriminate. }
    destruct Hv as [[d ->] | Hv].
    + rewrite export_report_object. eexists _, _. split; [reflexivity|].
      left. split; [reflexivity|]. by exists d.
    + rewrite (export_report_not_object scan_id m v w Hv).
      eexists _, _. split; [reflexivity|].
      right. split; [reflexivity|].
      exists (AttributeError v "get"). split; [|done]. right. by exists v.
  - rewrite export_report_bad_request. eexists _, _. split; [reflexivity|].
    right. split; [reflexivity|]. exists e. split; [by left | done].
Qed.

(** X6: a format that is given is never replaced by the default, whatever
    its value: the download URL ends with [str] of it, so a body with
    [format: null] is answered with a URL that ends in [.None]. *)
Theorem export_format_given scan_id m d w v :
  dict_lookup "format" d = Some v →
  ∃ w',
    export_report py_repr scan_id (Request m (Ok (JObj d))) w
    = (Ok (Response
             (JObj [ ("success", JBool true);
                     ("download_url",
                      JStr ("/downloads/report_" +:+ scan_id +:+ "."
                            +:+ py_str py_repr v)) ])
             200), w').
Proof.
  intros Hv. eexists. rewrite export_report_object.
  unfold dict_get. rewrite Hv. reflexivity.
Qed.

(** X7: reports do not collide on one axis: for one format, equal
    download URLs come from equal scan identifiers, and for one scan
    identifier, equal download URLs come from equal formats. *)
Theorem download_url_inj scan_id1 scan_id2 f1 f2 w :
  (generate_report py_repr scan_id1 (JStr f1) w).1
  = (generate_report py_repr scan_id2 (JStr f2) w).1 →
  (f1 = f2 → scan_id1 = scan_id2) ∧ (scan_id1 = scan_id2 → f1 = f2).
Proof.
  unfold generate_report, ret. cbn [fst py_str]. intros [= H].
  change (scan_id1 +:+ "." +:+ f1 = scan_id2 +:+ "." +:+ f2) in H.
  split.
  - intros ->. by apply string_app_inj_r in H.
  - intros ->. by do 2 apply (inj (String.app _)) in H.
Qed.

(** X8: without a user identifier in the session the settings view
    answers 403, [Unauthorized], whatever the method and the body, and does
    nothing else: the body is not read, no helper is called, nothing is
    logged. *)
Theorem settings_unauthorized session req w :
  truthy (session_get session "user_id") = false →
  manage_settings py_repr session req w
  = (Ok (Some (Response (JObj [("error", JStr "Unauthorized")]) 403)), w).
Proof. intros Hu. unfold manage_settings. by rewrite Hu. Qed.

(** X9: the settings view has no handler of its own for exceptions: when
    [get_json] raises on a POST, the exception leaves the view, and nothing
    was saved or logged; the scan view answers the same failure with a
    500. *)
Theorem settings_post_raises session e w :
  truthy (session_get session "user_id") = true →
  manage_settings py_repr session (Request POST (Raise e)) w = (Raise e, w)
  ∧ run_accessibility_scan py_repr session (Request POST (Raise e)) w
    = (Ok (error_response e), logged_error "Scan Error: " e w).
Proof.
  intros Hu. split; [|reflexivity].
  unfold manage_settings. by rewrite Hu.
Qed.

(** X10: a POST of settings is not validated: every JSON value, object or
    not, gets the same answer, success with status 200. *)
Theorem settings_post_any_body session v w :
  truthy (session_get session "user_id") = true →
  (manage_settings py_repr session (Request POST (Ok v)) w).1
  = Ok (Some (Response (JObj [("success", JBool true)]) 200)).
Proof. intros Hu. by rewrite manage_settings_post. Qed.

(** X11: the settings read are the same for every user and in every
    world: the answer does not depend on who asks. *)
Theorem settings_get_same_for_all session1 session2 r1 r2 w1 w2 :
  truthy (session_get session1 "user_id") = true →
  truthy (session_get session2 "user_id") = true →
  (manage_settings py_repr session1 (Request GET r1) w1).1
  = (manage_settings py_repr session2 (Request GET r2) w2).1.
Proof. intros H1 H2. by rewrite !manage_settings_get. Qed.

(** X12: a request to the settings route that is neither GET nor POST, as
    the HEAD that comes with GET, falls off the end of the view: it gives
    no response at all, and does nothing. *)
Theorem settings_head_no_response session r w :
  truthy (session_get session "user_id") = true →
  manage_settings py_repr session (Request HEAD r) w = (Ok None, w).
Proof. intros Hu. unfold manage_settings. by rewrite Hu. Qed.

End EdgesOfViews.

(** ** Launch *)

Section Launch.

Context (py_repr : json → string).
Context (message_launch_data : string → json → SM json).

Lemma lti_launch_library_raises s w e s1 w1 :
  message_launch_data get_lti_config_path get_launch_data_storage s w
  = (Raise e, s1, w1) →
  lti_launch py_repr message_launch_data s w
  = (Ok launch_failed, s1, logged_error "LTI Launch Error: " e w1).
Proof.
  intros Hlib. unfold lti_launch, stry_except.
  unfold sbind at 1. rewrite Hlib. reflexivity.
Qed.

Lemma lti_launch_not_object s w v s1 w1 :
  message_launch_data get_lti_config_path get_launch_data_storage s w
  = (Ok v, s1, w1) →
  (∀ d, v ≠ JObj d) →
  lti_launch py_repr message_launch_data s w
  = (Ok launch_failed, <["launch_data" := v]> s1,
     logged_error "LTI Launch Error: " (AttributeError v "get") w1).
Proof.
  intros Hlib Hv. unfold lti_launch, stry_except.
  unfold sbind at 1. rewrite Hlib.
  destruct v; try reflexivity. by destruct (Hv o).
Qed.

Lemma lti_launch_bad_context s w d v s1 w1 :
  message_launch_data get_lti_config_path get_launch_data_storage s w
  = (Ok (JObj d), s1, w1) →
  dict_get d context_claim (JObj []) = v →
  (∀ c, v ≠ JObj c) →
  lti_launch py_repr message_launch_data s w
  = (Ok launch_failed, <["launch_data" := JObj d]> s1,
     logged_error "LTI Launch Error: " (AttributeError v "get") w1).
Proof.
  intros Hlib Hctx Hv. unfold lti_launch, stry_except.
  unfold sbind at 1. rewrite Hlib.
  unfold sbind at 1. cbn [session_set].
  unfold sbind at 1. cbn [slift py_get ret]. rewrite Hctx.
  destruct v; try reflexivity. by destruct (Hv o).
Qed.

Lemma lti_launch_object s w d ctx s1 w1 :
  message_launch_data get_lti_config_path get_launch_data_storage s w
  = (Ok (JObj d), s1, w1) →
  dict_get d context_claim (JObj []) = JObj ctx →
  lti_launch py_repr message_launch_data s w
  = (Ok (RedirectTo "index"),
     <["user_id" := dict_get d "sub" JNull]>
       (<["course_id" := dict_get ctx "id" JNull]>
          (<["launch_data" := JObj d]> s1)),
     World (clock w1)
           (trace w1
            ++ [Logged INFO ("LTI Launch successful for course: "
                             +:+ py_str py_repr (dict_get ctx "id" JNull))])).
Proof.
  intros Hlib Hctx. unfold lti_launch, stry_except.
  unfold sbind at 1. rewrite Hlib.
  unfold sbind at 1. cbn [session_set].
  unfold sbind at 1. cbn [slift py_get ret]. rewrite Hctx.
  unfold sbind, session_set, session_read, slift, sret, logger_info, emit, ret.
  cbn [py_get ret]. unfold ret, session_get.
  rewrite lookup_insert_ne by done. rewrite lookup_insert_eq.
  reflexivity.
Qed.

(** X13: a launch whose data is an object with an object (or no) context
    claim redirects to the index and leaves in the session the launch
    data, the context's [id] as course identifier and [sub] as user
    identifier, [None] standing for a missing one; every other key of the
    session is as the library left it. *)
Theorem lti_launch_stores_identity s w d ctx s1 w1 :
  message_launch_data get_lti_config_path get_launch_data_storage s w
  = (Ok (JObj d), s1, w1) →
  dict_get d context_claim (JObj []) = JObj ctx →
  ∃ s' w',
    lti_launch py_repr message_launch_data s w
    = (Ok (RedirectTo "index"), s', w')
    ∧ s' !! "launch_data" = Some (JObj d)
    ∧ s' !! "course_id" = Some (dict_get ctx "id" JNull)
    ∧ s' !! "user_id" = Some (dict_get d "sub" JNull)
    ∧ (∀ k, k ≠ "launch_data" → k ≠ "course_id" → k ≠ "user_id" →
            s' !! k = s1 !! k).
Proof.
  intros Hlib Hctx. eexists _, _.
  split; [by apply lti_launch_object|].
  split.
  { do 2 (rewrite lookup_insert_ne by done). by rewrite lookup_insert_eq. }
  split.
  { rewrite lookup_insert_ne by done. by rewrite lookup_insert_eq. }
  split; [by rewrite lookup_insert_eq|].
  intros k H1 H2 H3. by do 3 (rewrite lookup_insert_ne by done).
Qed.

(** X14: when the library refuses the launch, the answer is the fixed
    [Launch failed] with status 500: the text of the exception goes to the
    log and not to the caller, and the view writes nothing to the
    session. *)
Theorem lti_launch_failure_hides_text s w e s1 w1 :
  message_launch_data get_lti_config_path get_launch_data_storage s w
  = (Raise e, s1, w1) →
  ∃ w',
    lti_launch py_repr message_launch_data s w = (Ok launch_failed, s1, w')
    ∧ launch_failed
      = JsonReply (Response (JObj [("error", JStr "Launch failed")]) 500)
    ∧ last (trace w') = Some (Logged ERROR ("LTI Launch Error: " +:+ exn_str e)).
Proof.
  intros Hlib. eexists. split; [by apply lti_launch_library_raises|].
  split; [done|]. cbn. by rewrite last_snoc.
Qed.

(** X15: a launch whose context claim is there but is not an object fails
    half way: the answer is [Launch failed], yet the launch data is already
    in the session, while course and user identifier are not written; the
    index then lets the caller in. *)
Theorem lti_launch_bad_context_half_done s w d v s1 w1 :
  message_launch_data get_lti_config_path get_launch_data_storage s w
  = (Ok (JObj d), s1, w1) →
  dict_lookup context_claim d = Some v →
  (∀ c, v ≠ JObj c) →
  ∃ s' w',
    lti_launch py_repr message_launch_data s w = (Ok launch_failed, s', w')
    ∧ s' !! "launch_data" = Some (JObj d)
    ∧ s' !! "course_id" = s1 !! "course_id"
    ∧ s' !! "user_id" = s1 !! "user_id"
    ∧ index s' = Rendered "lti_tool.html".
Proof.
  intros Hlib Hctx Hv. eexists _, _.
  split.
  { apply (lti_launch_bad_context s w d v s1 w1 Hlib); [|done].
    unfold dict_get. by rewrite Hctx. }
  split; [by rewrite lookup_insert_eq|].
  split; [by rewrite lookup_insert_ne by done|].
  split; [by rewrite lookup_insert_ne by done|].
  unfold index. by rewrite lookup_insert_eq.
Qed.

(** X16: the launch view never raises, and it has two answers only: the
    redirect to the index, exactly when the launch data is an object whose
    context claim, if any, is an object, and [Launch failed] otherwise. *)
Theorem lti_launch_cases s w :
  ∃ r s' w',
    lti_launch py_repr message_launch_data s w = (Ok r, s', w')
    ∧ ((r = RedirectTo "index"
        ∧ ∃ d ctx s1 w1,
            message_launch_data get_lti_config_path get_launch_data_storage s w
            = (Ok (JObj d), s1, w1)
            ∧ dict_get d context_claim (JObj []) = JObj ctx)
       ∨ (r = launch_failed
          ∧ ((∃ e s1 w1,
                message_launch_data get_lti_config_path
                  get_launch_data_storage s w = (Raise e, s1, w1))
             ∨ (∃ v s1 w1,
                  message_launch_data get_lti_config_path
                    get_launch_data_storage s w = (Ok v, s1, w1)
                  ∧ ∀ d, v = JObj d →
                         ∀ c, dict_get d context_claim (JObj []) ≠ JObj c)))).
Proof.
  destruct (message_launch_data get_lti_config_path get_launch_data_storage s w)
    as [[[v|e] s1] w1] eqn:Hlib.
  - assert (Hv : (∃ d, v = JObj d) ∨ ∀ d, v ≠ JObj d).
    { destruct v; eauto; right; intros d'; discriminate. }
    destruct Hv as [[d ->] | Hv].
    + destruct (dict_get d context_claim (JObj [])) as [| | | | | |ctx] eqn:Hctx.
      7: { eexists _, _, _. split; [by eapply lti_launch_object|].
           left. split; [done|]. by exists d, ctx, s1, w1. }
      all: eexists _, _, _;
        (split; [by eapply lti_launch_bad_context|]);
        right; (split; [done|]); right; exists (JObj d), s1, w1;
        (split; [done|]); intros d' [= <-] c; by rewrite Hctx.
    + eexists _, _, _. split; [by apply lti_launch_not_object|].
      right. split; [done|]. right. exists v, s1, w1. split; [done|].
      intros d ->. by destruct (Hv d).
  - eexists _, _, _. split; [by apply lti_launch_library_raises|].
    right. split; [done|]. left. by exists e, s1, w1.
Qed.

(** X17: once a launch has redirected, the index lets the caller in; a
    session without launch data is answered 403. *)
Theorem index_after_launch s w endpoint s' w' :
  lti_launch py_repr message_launch_data s w
  = (Ok (RedirectTo endpoint), s', w') →
  index s' = Rendered "lti_tool.html"
  ∧ (s !! "launch_data" = None →
     index s = TextReply "Unauthorized. Please launch from Canvas." 403).
Proof.
  intros Hlaunch. split; [|by unfold index; intros ->].
  destruct (message_launch_data get_lti_config_path get_launch_data_storage s w)
    as [[[v|e] s1] w1] eqn:Hlib.
  - assert (Hv : (∃ d, v = JObj d) ∨ ∀ d, v ≠ JObj d).
    { destruct v; eauto; right; intros d'; discriminate. }
    destruct Hv as [[d ->] | Hv].
    + destruct (dict_get d context_claim (JObj [])) as [| | | | | |ctx] eqn:Hctx.
      7: { rewrite (lti_launch_object s w d ctx s1 w1 Hlib Hctx) in Hlaunch.
           injection Hlaunch as _ <- _. unfold index.
           do 2 (rewrite lookup_insert_ne by done). by rewrite lookup_insert_eq. }
      all: rewrite (lti_launch_bad_context s w d _ s1 w1 Hlib Hctx) in Hlaunch
        by done; discriminate Hlaunch.
    + rewrite (lti_launch_not_object s w v s1 w1 Hlib Hv) in Hlaunch.
      discriminate Hlaunch.
  - rewrite (lti_launch_library_raises s w e s1 w1 Hlib) in Hlaunch.
    discriminate Hlaunch.
Qed.

(** X18: a scan asked for after a launch is run for the course of the
    launch, whatever course the body names; and after a launch without a
    course, a scan whose body names none is answered 400. *)
Theorem launch_then_scan s w d ctx s1 w1 :
  message_launch_data get_lti_config_path get_launch_data_storage s w
  = (Ok (JObj d), s1, w1) →
  dict_get d context_claim (JObj []) = JObj ctx →
  ∃ s' w',
    lti_launch py_repr message_launch_data s w
    = (Ok (RedirectTo "index"), s', w')
    ∧ (truthy (dict_get ctx "id" JNull) = true →
       ∀ m body w2,
         run_accessibility_scan py_repr s' (Request m (Ok (JObj body))) w2
         = (Ok (Response (JObj (scan_payload (clock w2))) 200),
            at_scan_call py_repr (dict_get ctx "id" JNull) body w2))
    ∧ (truthy (dict_get ctx "id" JNull) = false →
       ∀ m body w2,
         truthy (dict_get body "courseId" JNull) = false →
         run_accessibility_scan py_repr s' (Request m (Ok (JObj body))) w2
         = (Ok (Response (JObj [("error", JStr "Course ID required")]) 400),
            w2)).
Proof.
  intros Hlib Hctx. eexists _, _.
  split; [by apply lti_launch_object|].
  set (s' := <["user_id" := _]> _).
  assert (Hcourse : session_get s' "course_id" = dict_get ctx "id" JNull).
  { unfold session_get, s'. rewrite lookup_insert_ne by done.
    by rewrite lookup_insert_eq. }
  split.
  - intros Ht m body w2. apply run_scan_object; [|done].
    unfold course_id_of. by rewrite Hcourse, Ht.
  - intros Ht m body w2 Hbody. unfold run_accessibility_scan.
    apply (run_scan_with_no_course py_repr _ s' m body w2).
    unfold course_id_of. by rewrite Hcourse, Ht.
Qed.

(** X19: after a launch the settings view serves the user of the launch:
    it answers a GET with the settings when the launch data names a user
    in [sub], and with 403 when it names none. *)
Theorem launch_then_settings s w d ctx s1 w1 :
  message_launch_data get_lti_config_path get_launch_data_storage s w
  = (Ok (JObj d), s1, w1) →
  dict_get d context_claim (JObj []) = JObj ctx →
  ∃ s' w',
    lti_launch py_repr message_launch_data s w
    = (Ok (RedirectTo "index"), s', w')
    ∧ (truthy (dict_get d "sub" JNull) = true →
       ∀ r w2,
         (manage_settings py_repr s' (Request GET r) w2).1
         = Ok (Some (Response (JObj default_settings) 200)))
    ∧ (truthy (dict_get d "sub" JNull) = false →
       ∀ req w2,
         manage_settings py_repr s' req w2
         = (Ok (Some (Response (JObj [("error", JStr "Unauthorized")]) 403)),
            w2)).
Proof.
  intros Hlib Hctx. eexists _, _.
  split; [by apply lti_launch_object|].
  set (s' := <["user_id" := _]> _).
  assert (Huser : session_get s' "user_id" = dict_get d "sub" JNull).
  { unfold session_get, s'. by rewrite lookup_insert_eq. }
  split.
  - intros Ht r w2. rewrite manage_settings_get; [done|]. by rewrite Huser.
  - intros Ht req w2. unfold manage_settings. by rewrite Huser, Ht.
Qed.

End Launch.

(** ** Login, and the Canvas views *)

(** X20: the login view hands on what the library answers, and when the
    library raises it answers the fixed [Login failed] with status 500 and
    logs the text of the exception; it never raises. *)
Theorem lti_login_cases (oidc_login_redirect : string → json → string → SM reply)
    (s : gmap string json) (w : world) :
  ∃ r s' w',
    lti_login oidc_login_redirect s w = (Ok r, s', w')
    ∧ (oidc_login_redirect "lti_config.json" (JObj []) "lti_launch" s w
       = (Ok r, s', w')
       ∨ ∃ e w1,
           oidc_login_redirect "lti_config.json" (JObj []) "lti_launch" s w
           = (Raise e, s', w1)
           ∧ r = login_failed
           ∧ w' = logged_error "LTI Login Error: " e w1).
Proof.
  unfold lti_login, stry_except.
  change get_lti_config_path with "lti_config.json".
  change get_launch_data_storage with (JObj []).
  destruct (oidc_login_redirect _ _ _ s w) as [[[r|e] s1] w1].
  - eexists _, _, _. split; [done|]. by left.
  - eexists _, _, _. split; [reflexivity|]. right. by exists e, w1.
Qed.

(** X21: the Canvas views answer 200 with sample data that only echoes
    what was asked: the course view gives back the course identifier, the
    page view gives the same page for every course, and the assignments
    are the same for every course. *)
Theorem canvas_views_sample_data (course1 course2 page : string) (w : world) :
  (get_course_info course1 w).1
  = Ok (Response (JObj [("id", JStr course1); ("name", JStr "Sample Course")])
                 200)
  ∧ (get_page_content course1 page w).1 = (get_page_content course2 page w).1
  ∧ (get_assignments course1 w).1 = (get_assignments course2 w).1
  ∧ (∃ r1 r2 w1 w2,
       get_page_content course1 page w = (Ok r1, w1)
       ∧ get_assignments course1 w = (Ok r2, w2)
       ∧ status r1 = 200%Z ∧ status r2 = 200%Z
       ∧ obj_field "id" (body r1) = Some (JStr page)).
Proof.
  repeat split. eexists _, _, _, _. repeat split.
Qed.

(** ** The further properties at sample inputs *)

Lemma scan_answer_ignores_request_witness :
  let body := [("courseId", JStr "99"); ("modules", JBool true)] in
  let later := World t0 [Logged INFO "earlier"] in
  truthy (course_id_of launched []) = true
  ∧ truthy (course_id_of anonymous body) = true
  ∧ clock w0 = clock later
  ∧ (run_accessibility_scan sample_repr launched
       (Request POST (Ok (JObj []))) w0).1
    = (run_accessibility_scan sample_repr anonymous
         (Request POST (Ok (JObj body))) later).1.
Proof.
  intros body later.
  split; [reflexivity|]. split; [reflexivity|]. split; [reflexivity|].
  apply (scan_answer_ignores_request sample_repr launched anonymous POST POST
           [] body w0 later); reflexivity.
Defined.

Lemma export_format_given_witness :
  dict_lookup "format" [("format", JNull)] = Some JNull
  ∧ ∃ w',
      export_report sample_repr "s1"
        (Request POST (Ok (JObj [("format", JNull)]))) w0
      = (Ok (Response
               (JObj [ ("success", JBool true);
                       ("download_url", JStr "/downloads/report_s1.None") ])
               200), w').
Proof.
  split; [reflexivity|].
  apply (export_format_given sample_repr "s1" POST [("format", JNull)] w0 JNull).
  reflexivity.
Defined.

Lemma download_url_inj_witness :
  (generate_report sample_repr "s1" (JStr "pdf") w0).1
  = (generate_report sample_repr "s1" (JStr "pdf") w0).1
  ∧ ("pdf" = "pdf" → "s1" = "s1") ∧ ("s1" = "s1" → "pdf" = "pdf").
Proof.
  split; [reflexivity|].
  apply (download_url_inj sample_repr "s1" "s1" "pdf" "pdf" w0). reflexivity.
Defined.

Lemma settings_unauthorized_witness :
  truthy (session_get anonymous "user_id") = false
  ∧ manage_settings sample_repr anonymous
      (Request POST (Ok (JObj settings_level_A))) w0
    = (Ok (Some (Response (JObj [("error", JStr "Unauthorized")]) 403)), w0).
Proof.
  split; [reflexivity|].
  apply (settings_unauthorized sample_repr anonymous). reflexivity.
Defined.

Lemma settings_post_raises_witness :
  let e := Exn "BadRequest" "400 Bad Request: Failed to decode JSON object" in
  truthy (session_get launched "user_id") = true
  ∧ manage_settings sample_repr launched (Request POST (Raise e)) w0
    = (Raise e, w0)
  ∧ run_accessibility_scan sample_repr launched (Request POST (Raise e)) w0
    = (Ok (error_response e), logged_error "Scan Error: " e w0).
Proof.
  intros e. split; [reflexivity|].
  apply (settings_post_raises sample_repr launched e w0). reflexivity.
Defined.

Lemma settings_post_any_body_witness :
  truthy (session_get launched "user_id") = true
  ∧ (manage_settings sample_repr launched
       (Request POST (Ok (JArr [JInt 1; JNull]))) w0).1
    = Ok (Some (Response (JObj [("success", JBool true)]) 200)).
Proof.
  split; [reflexivity|].
  apply (settings_post_any_body sample_repr launched). reflexivity.
Defined.

Lemma settings_get_same_for_all_witness :
  let other : gmap string json := {["user_id" := JStr "u2"]} in
  truthy (session_get launched "user_id") = true
  ∧ truthy (session_get other "user_id") = true
  ∧ (manage_settings sample_repr launched (Request GET (Ok JNull)) w0).1
    = (manage_settings sample_repr other (Request GET (Ok JNull))
         (World t1 [])).1.
Proof.
  intros other.
  split; [reflexivity|]. split; [reflexivity|].
  apply (settings_get_same_for_all sample_repr launched other); reflexivity.
Defined.

Lemma settings_head_no_response_witness :
  truthy (session_get launched "user_id") = true
  ∧ manage_settings sample_repr launched (Request HEAD (Ok JNull)) w0
    = (Ok None, w0).
Proof.
  split; [reflexivity|].
  apply (settings_head_no_response sample_repr launched). reflexivity.
Defined.

Lemma lti_launch_stores_identity_witness :
  let ctx := [("id", JStr "42"); ("title", JStr "Ethics")] in
  let lib := launch_accepted (JObj sample_launch_data) in
  lib get_lti_config_path get_launch_data_storage anonymous w0
  = (Ok (JObj sample_launch_data), anonymous, w0)
  ∧ dict_get sample_launch_data context_claim (JObj []) = JObj ctx
  ∧ ∃ s' w',
      lti_launch sample_repr lib anonymous w0 = (Ok (RedirectTo "index"), s', w')
      ∧ s' !! "launch_data" = Some (JObj sample_launch_data)
      ∧ s' !! "course_id" = Some (JStr "42")
      ∧ s' !! "user_id" = Some (JStr "u1")
      ∧ (∀ k, k ≠ "launch_data" → k ≠ "course_id" → k ≠ "user_id" →
              s' !! k = anonymous !! k).
Proof.
  intros ctx lib.
  split; [reflexivity|]. split; [reflexivity|].
  apply (lti_launch_stores_identity sample_repr lib anonymous w0
           sample_launch_data ctx anonymous w0); reflexivity.
Defined.

Lemma lti_launch_failure_hides_text_witness :
  let e := Exn "LtiException" "Invalid id_token" in
  launch_refused get_lti_config_path get_launch_data_storage anonymous w0
  = (Raise e, anonymous, w0)
  ∧ ∃ w',
      lti_launch sample_repr launch_refused anonymous w0
      = (Ok launch_failed, anonymous, w')
      ∧ launch_failed
        = JsonReply (Response (JObj [("error", JStr "Launch failed")]) 500)
      ∧ last (trace w')
        = Some (Logged ERROR ("LTI Launch Error: " +:+ exn_str e)).
Proof.
  intros e. split; [reflexivity|].
  apply (lti_launch_failure_hides_text sample_repr launch_refused anonymous w0
           e anonymous w0).
  reflexivity.
Defined.

Lemma lti_launch_bad_context_half_done_witness :
  let d := [("sub", JStr "u1"); (context_claim, JStr "42")] in
  let lib := launch_accepted (JObj d) in
  lib get_lti_config_path get_launch_data_storage anonymous w0
  = (Ok (JObj d), anonymous, w0)
  ∧ dict_lookup context_claim d = Some (JStr "42")
  ∧ ∃ s' w',
      lti_launch sample_repr lib anonymous w0 = (Ok launch_failed, s', w')
      ∧ s' !! "launch_data" = Some (JObj d)
      ∧ s' !! "course_id" = anonymous !! "course_id"
      ∧ s' !! "user_id" = anonymous !! "user_id"
      ∧ index s' = Rendered "lti_tool.html".
Proof.
  intros d lib.
  split; [reflexivity|]. split; [reflexivity|].
  apply (lti_launch_bad_context_half_done sample_repr lib anonymous w0 d
           (JStr "42") anonymous w0); [reflexivity | reflexivity |].
  intros c. discriminate.
Defined.

Lemma index_after_launch_witness :
  let lib := launch_accepted (JObj sample_launch_data) in
  let s' : gmap string json :=
    <["user_id" := JStr "u1"]>
      (<["course_id" := JStr "42"]>
         (<["launch_data" := JObj sample_launch_data]> anonymous)) in
  let w' :=
    World t0 [Logged INFO "LTI Launch successful for course: 42"] in
  lti_launch sample_repr lib anonymous w0 = (Ok (RedirectTo "index"), s', w')
  ∧ anonymous !! "launch_data" = None
  ∧ index s' = Rendered "lti_tool.html"
  ∧ index anonymous = TextReply "Unauthorized. Please launch from Canvas." 403.
Proof.
  intros lib s' w'.
  assert (Hlaunch : lti_launch sample_repr lib anonymous w0
                    = (Ok (RedirectTo "index"), s', w')) by reflexivity.
  split; [exact Hlaunch|]. split; [reflexivity|].
  destruct (index_after_launch sample_repr lib anonymous w0 "index" s' w'
              Hlaunch) as [Hin Hout].
  split; [exact Hin|]. apply Hout. reflexivity.
Defined.

Lemma launch_then_scan_witness :
  let ctx := [("id", JStr "42"); ("title", JStr "Ethics")] in
  let lib := launch_accepted (JObj sample_launch_data) in
  let body := [("courseId", JStr "99")] in
  lib get_lti_config_path get_launch_data_storage anonymous w0
  = (Ok (JObj sample_launch_data), anonymous, w0)
  ∧ dict_get sample_launch_data context_claim (JObj []) = JObj ctx
  ∧ truthy (dict_get ctx "id" JNull) = true
  ∧ ∃ s' w',
      lti_launch sample_repr lib anonymous w0 = (Ok (RedirectTo "index"), s', w')
      ∧ run_accessibility_scan sample_repr s' (Request POST (Ok (JObj body))) w'
        = (Ok (Response (JObj (scan_payload (clock w'))) 200),
           at_scan_call sample_repr (JStr "42") body w').
Proof.
  intros ctx lib body.
  split; [reflexivity|]. split; [reflexivity|]. split; [reflexivity|].
  destruct (launch_then_scan sample_repr lib anonymous w0 sample_launch_data
              ctx anonymous w0 eq_refl eq_refl)
    as (s' & w' & Hlaunch & Hcourse & _).
  exists s', w'. split; [exact Hlaunch|].
  apply (Hcourse eq_refl POST body w').
Defined.

Lemma launch_then_settings_witness :
  let ctx := [("id", JStr "42"); ("title", JStr "Ethics")] in
  let lib := launch_accepted (JObj sample_launch_data) in
  lib get_lti_config_path get_launch_data_storage anonymous w0
  = (Ok (JObj sample_launch_data), anonymous, w0)
  ∧ dict_get sample_launch_data context_claim (JObj []) = JObj ctx
  ∧ truthy (dict_get sample_launch_data "sub" JNull) = true
  ∧ ∃ s' w',
      lti_launch sample_repr lib anonymous w0 = (Ok (RedirectTo "index"), s', w')
      ∧ (manage_settings sample_repr s' (Request GET (Ok JNull)) w').1
        = Ok (Some (Response (JObj default_settings) 200)).
Proof.
  intros ctx lib.
  split; [reflexivity|]. split; [reflexivity|]. split; [reflexivity|].
  destruct (launch_then_settings sample_repr lib anonymous w0 sample_launch_data
              ctx anonymous w0 eq_refl eq_refl)
    as (s' & w' & Hlaunch & Huser & _).
  exists s', w'. split; [exact Hlaunch|].
  apply (Huser eq_refl (Ok JNull) w').
Defined.
